(** * Sales export service: a shallow embedding of [main.py]

    The service has two request handlers, [get_sales] and
    [get_sales_for_period].  Both read the [sales] collection, build a
    pandas [DataFrame] from the documents found and serialize it.

    The handlers are embedded line by line.  What they call in pymongo,
    pandas, pydantic and Starlette is embedded as far as the handlers
    depend on it:

    - strings are sequences of 8-bit characters; [lower] and the
      case-insensitive match fold the ASCII letters only;
    - a BSON value is one of the scalar kinds of [value]; a float is an
      IEEE-754 binary float ([spec_float]), so that NaN is a value and
      [==] is the IEEE comparison;
    - a stored document always carries [_id] (the store adds one on
      insertion) and is read in field order, the first binding of a key
      being the one a Python [dict] shows;
    - pandas' choice of a dtype per column is not embedded: a cell keeps
      the value that was stored, a cell without a stored value is NaN;
    - on the empty collection the assignment of [net] is embedded as
      pandas 2 has it, where it raises; none of the statements below
      rests on that;
    - how pandas prints a cell that is not missing, and how pydantic
      coerces a value to [str], [float], [int], [datetime] or [dict],
      are parameters of the development. *)

From Stdlib Require Import String Ascii List ZArith Bool Lia.
From Stdlib Require Import Floats.SpecFloat.
Import ListNotations.

Open Scope string_scope.
Open Scope list_scope.

(** ** Values and documents *)

(** A BSON [ObjectId] is its bytes. *)
Definition ObjectId : Type := list N.

Inductive value : Type :=
| VNone
| VBool (b : bool)
| VInt (n : Z)
| VFloat (f : spec_float)
| VStr (s : string)
| VObjectId (oid : ObjectId)
| VDatetime (millis : Z)
| VDict (d : list (string * string)).

(** The value pandas puts in a cell for which a record has no field. *)
Definition NaN : value := VFloat S754_nan.

(** [v == 0] in Python: numbers compare by value, [False] is the integer
    zero, NaN equals nothing, and a value of any other kind is not a
    number. *)
Definition eq_zero (v : value) : bool :=
  match v with
  | VBool b => negb b
  | VInt n => (n =? 0)%Z
  | VFloat f => SFeqb f (S754_zero false)
  | _ => false
  end.

(** Missing in the sense of pandas' [isna]. *)
Definition isna (v : value) : bool :=
  match v with
  | VNone => true
  | VFloat S754_nan => true
  | _ => false
  end.

(** A Python [dict] with string keys, in insertion order. *)
Definition dict : Type := list (string * value).

Fixpoint dict_get (k : string) (d : dict) : option value :=
  match d with
  | [] => None
  | (k', v) :: d' => if String.eqb k k' then Some v else dict_get k d'
  end.

Definition keys (d : dict) : list string := map fst d.

Definition contains (l : list string) (s : string) : bool :=
  existsb (String.eqb s) l.

Record document : Type := mkdoc {
  doc_id : value;
  doc_fields : dict
}.

(** The [dict] pymongo hands out for a document. *)
Definition items (d : document) : dict := ("_id", doc_id d) :: doc_fields d.

Definition Collection : Type := list document.

(** ** Exceptions and the handler monad *)

Inductive exn : Type :=
| HTTPException (status_code : Z) (detail : string)
| KeyError (key : string)
| ValueError (msg : string)
| ValidationError (loc : string).

Inductive result (A : Type) : Type :=
| Ok (a : A)
| Raise (e : exn).

Arguments Ok {A} a.
Arguments Raise {A} e.

Definition rbind {A B} (r : result A) (k : A -> result B) : result B :=
  match r with
  | Ok a => k a
  | Raise e => Raise e
  end.

Fixpoint rmap {A B} (f : A -> result B) (l : list A) : result (list B) :=
  match l with
  | [] => Ok []
  | a :: l' =>
      rbind (f a) (fun b => rbind (rmap f l') (fun bs => Ok (b :: bs)))
  end.

(** A handler runs against the [sales] collection and may raise. *)
Definition M (A : Type) : Type := Collection -> result A * Collection.

Definition ret {A} (a : A) : M A := fun db => (Ok a, db).

Definition raise {A} (e : exn) : M A := fun db => (Raise e, db).

Definition bind {A B} (m : M A) (k : A -> M B) : M B :=
  fun db =>
    match m db with
    | (Ok a, db') => k a db'
    | (Raise e, db') => (Raise e, db')
    end.

Definition lift {A} (r : result A) : M A := fun db => (r, db).

Declare Scope handler_scope.
Delimit Scope handler_scope with handler.
Notation "x <- m ;; k" := (bind m (fun x => k))
  (at level 61, m at next level, right associativity) : handler_scope.
Notation "'try' x <- r ;; k" := (rbind r (fun x => k))
  (at level 61, x name, r at next level, right associativity).

(** ** The pandas fragment *)

(** A row of a frame, as [apply(..., axis=1)] passes it and as
    [to_dict("records")] returns it: the cells under their labels. *)
Definition Series : Type := dict.

Record DataFrame : Type := mkframe {
  columns : list string;
  rows : list Series
}.

(** [x[label]] on a row. *)
Definition getitem (x : Series) (label : string) : result value :=
  match dict_get label x with
  | Some v => Ok v
  | None => Raise (KeyError label)
  end.

(** Column labels of a list of records: every key, at its first place. *)
Definition add_label (acc : list string) (k : string) : list string :=
  if contains acc k then acc else acc ++ [k].

Definition labels (records : list dict) : list string :=
  fold_left add_label (concat (map keys records)) [].

Definition cell (r : dict) (label : string) : value :=
  match dict_get label r with
  | Some v => v
  | None => NaN
  end.

Definition align (cols : list string) (r : dict) : Series :=
  map (fun c => (c, cell r c)) cols.

(** [pd.DataFrame(records)]. *)
Definition DataFrame_of (records : list dict) : DataFrame :=
  let cols := labels records in
  {| columns := cols; rows := map (align cols) records |}.

(** [df.apply(f, axis=1)].  On a frame without rows pandas does not call
    [f] and gives back a copy of the frame; [None] stands for that. *)
Definition apply_rows (f : Series -> result value) (df : DataFrame)
  : result (option (list value)) :=
  match rows df with
  | [] => Ok None
  | _ => try vs <- rmap f (rows df);; Ok (Some vs)
  end.

Fixpoint set_cell (label : string) (v : value) (x : Series) : Series :=
  match x with
  | [] => [(label, v)]
  | (k, w) :: x' =>
      if String.eqb label k then (k, v) :: x'
      else (k, w) :: set_cell label v x'
  end.

Fixpoint set_cells (label : string) (vs : list value) (xs : list Series)
  : list Series :=
  match xs, vs with
  | x :: xs', v :: vs' => set_cell label v x :: set_cells label vs' xs'
  | _, _ => []
  end.

(** [df[label] = col].  A column of values replaces the column of that
    label or becomes the last one; a frame without columns (what [apply]
    gives on an empty frame) cannot be assigned to one column. *)
Definition setitem (df : DataFrame) (label : string)
  (col : option (list value)) : result DataFrame :=
  match col with
  | Some vs =>
      Ok {| columns := add_label (columns df) label;
            rows := set_cells label vs (rows df) |}
  | None =>
      Raise (ValueError "Cannot set a DataFrame without columns to the column")
  end.

(** [df.to_dict("records")]. *)
Definition to_dict_records (df : DataFrame) : list dict := rows df.

(** ** Strings *)

Definition lower_char (c : ascii) : ascii :=
  let n := nat_of_ascii c in
  if (65 <=? n)%nat && (n <=? 90)%nat then ascii_of_nat (n + 32) else c.

(** [s.lower()]. *)
Fixpoint lower (s : string) : string :=
  match s with
  | EmptyString => EmptyString
  | String c s' => String (lower_char c) (lower s')
  end.

(** [s.endswith(t)]. *)
Fixpoint endswith (s t : string) : bool :=
  if String.eqb s t then true
  else match s with
       | EmptyString => false
       | String _ s' => endswith s' t
       end.

Fixpoint has_char (c : ascii) (s : string) : bool :=
  match s with
  | EmptyString => false
  | String c' s' => Ascii.eqb c c' || has_char c s'
  end.

(** [t in s]. *)
Fixpoint has_substring (t s : string) : bool :=
  if prefix t s then true
  else match s with
       | EmptyString => false
       | String _ s' => has_substring t s'
       end.

(** Some character of [chars] is in [s]. *)
Fixpoint has_any (chars s : string) : bool :=
  match chars with
  | EmptyString => false
  | String c chars' => has_char c s || has_any chars' s
  end.

Definition LF : ascii := ascii_of_nat 10.
Definition DQUOTE : ascii := ascii_of_nat 34.

Definition str (c : ascii) : string := String c EmptyString.

Fixpoint join (sep : string) (l : list string) : string :=
  match l with
  | [] => EmptyString
  | [s] => s
  | s :: l' => s ++ sep ++ join sep l'
  end.

(** ** The store *)

(** The two filters the handlers pass to [find]: none, and a regular
    expression on one field. *)
Inductive query : Type :=
| All
| Regex (field pattern options : string).

Definition ends_with_dollar (pattern : string) : option string :=
  let n := String.length pattern in
  if endswith pattern "$" then Some (substring 0 (n - 1) pattern) else None.

(** PCRE search, for a pattern of literal characters that may be closed
    by [$].  Option [i] folds case.  Without option [m] the anchor [$]
    holds at the end of the subject and before a line feed that ends
    it. *)
Definition regex_search (pattern options subject : string) : bool :=
  let fold := if has_char "i" options then lower else (fun s => s) in
  match ends_with_dollar pattern with
  | Some lit =>
      endswith (fold subject) (fold lit)
      || endswith (fold subject) (fold lit ++ str LF)
  | None => has_substring (fold pattern) (fold subject)
  end.

(** The characters that stand for themselves in the patterns above. *)
Definition literal_char (c : ascii) : bool :=
  let n := nat_of_ascii c in
  ((48 <=? n)%nat && (n <=? 57)%nat)
  || ((65 <=? n)%nat && (n <=? 90)%nat)
  || ((97 <=? n)%nat && (n <=? 122)%nat)
  || (n =? 45)%nat.

Fixpoint literal (s : string) : bool :=
  match s with
  | EmptyString => true
  | String c s' => literal_char c && literal s'
  end.

Definition matches (q : query) (d : document) : bool :=
  match q with
  | All => true
  | Regex field pattern options =>
      match dict_get field (items d) with
      | Some (VStr s) => regex_search pattern options s
      | _ => false
      end
  end.

(** [list(sales.find(q))]: the matching documents, in stored order.  The
    collection is read and left as it is. *)
Definition find (q : query) : M (list dict) :=
  fun db => (Ok (map items (filter (matches q) db)), db).

(** ** ObjectId *)

Definition hexval (c : ascii) : option N :=
  let n := nat_of_ascii c in
  if (48 <=? n)%nat && (n <=? 57)%nat then Some (N.of_nat (n - 48))
  else if (65 <=? n)%nat && (n <=? 70)%nat then Some (N.of_nat (n - 55))
  else if (97 <=? n)%nat && (n <=? 102)%nat then Some (N.of_nat (n - 87))
  else None.

Definition is_space (c : ascii) : bool :=
  let n := nat_of_ascii c in
  (n =? 32)%nat || ((9 <=? n)%nat && (n <=? 13)%nat).

(** [bytes.fromhex(s)]: two digits a byte, white space between bytes
    skipped. *)
Fixpoint fromhex (s : string) : option (list N) :=
  match s with
  | EmptyString => Some []
  | String c s' =>
      if is_space c then fromhex s'
      else match s' with
           | EmptyString => None
           | String d s'' =>
               match hexval c, hexval d, fromhex s'' with
               | Some h, Some l, Some bs => Some ((16 * h + l)%N :: bs)
               | _, _, _ => None
               end
           end
  end.

(** [ObjectId(v)] for a [v] that is an identifier already or a string of
    24 characters that [fromhex] reads. *)
Definition ObjectId_of (v : value) : option ObjectId :=
  match v with
  | VObjectId oid => Some oid
  | VStr s => if (String.length s =? 24)%nat then fromhex s else None
  | _ => None
  end.

(** [ObjectId.is_valid(v)]. *)
Definition is_valid (v : value) : bool :=
  match v with
  | VObjectId _ => true
  | VStr s =>
      (String.length s =? 24)%nat
      && match fromhex s with Some _ => true | None => false end
  | _ => false
  end.

(** [PyObjectId.validate]. *)
Definition PyObjectId_validate (v : value) : result ObjectId :=
  if negb (is_valid v) then Raise (ValueError "Invalid objectid")
  else match ObjectId_of v with
       | Some oid => Ok oid
       | None => Raise (ValueError "InvalidId")
       end.

(** ** Serialization to delimited text *)

(** What pandas writes for a cell that is not missing. *)
Class Printer : Type := {
  cell_repr : value -> string
}.

(** The line terminator of [to_csv], [os.linesep]. *)
Definition linesep : string := str LF.

Fixpoint double_quotes (s : string) : string :=
  match s with
  | EmptyString => EmptyString
  | String c s' =>
      if Ascii.eqb c DQUOTE then String c (String c (double_quotes s'))
      else String c (double_quotes s')
  end.

(** Minimal quoting of the [csv] module: a field is quoted when it holds
    the delimiter, the quote character or a character of the line
    terminator. *)
Definition needs_quotes (sep : ascii) (s : string) : bool :=
  has_char sep s || has_char DQUOTE s || has_any linesep s.

Definition quote (s : string) : string :=
  str DQUOTE ++ double_quotes s ++ str DQUOTE.

Definition csv_field (sep : ascii) (s : string) : string :=
  if needs_quotes sep s then quote s else s.

(** [writer.writerow(fields)]; a row of one empty field is written
    quoted. *)
Definition writerow (sep : ascii) (fields : list string) : string :=
  match fields with
  | [EmptyString] => quote EmptyString
  | _ => join (str sep) (map (csv_field sep) fields)
  end ++ linesep.



Section Serialization.

Context `{Printer}.

(** The text of a cell; a missing one is written empty. *)
Definition cell_text (v : value) : string :=
  if isna v then EmptyString else cell_repr v.

(** [df.to_csv(stream, index=False, sep=sep)]: the header row of column
    labels, then a row per record. *)
Definition to_csv (sep : ascii) (df : DataFrame) : string :=
  writerow sep (columns df)
  ++ String.concat EmptyString
       (map (fun x => writerow sep (map (fun kv => cell_text (snd kv)) x))
            (rows df)).

End Serialization.

(** ** The [Sale] model *)

Module Sale.

Record t : Type := mk {
  id : ObjectId;
  key : string;
  distribution : string;
  rep : string;
  item : string;
  sale : spec_float;
  quantity : Z;
  uom : string;
  date : Z;
  customer : string;
  ship_to_name : string;
  addr1 : string;
  addr2 : option string;
  city : string;
  state : string;
  postal : string;
  country : option string;
  contract : option string;
  cust_nbr : option string;
  notes : option (list (string * string));
  gpo : option string;
  rebate : option spec_float;
  net : option spec_float
}.

End Sale.

(** pydantic's validators for the declared field types, and the
    identifier [default_factory] makes. *)
Class Validators : Type := {
  str_validator : value -> option string;
  float_validator : value -> option spec_float;
  int_validator : value -> option Z;
  datetime_validator : value -> option Z;
  dict_validator : value -> option (list (string * string));
  default_factory : ObjectId
}.

(** A field declared [name: T = Field(...)]: the key has to be there, and
    [None] is not a [T]. *)
Definition required {T} (name : string) (validator : value -> option T)
  (values : dict) : result T :=
  match dict_get name values with
  | None => Raise (ValidationError name)
  | Some VNone => Raise (ValidationError name)
  | Some v =>
      match validator v with
      | Some t => Ok t
      | None => Raise (ValidationError name)
      end
  end.

(** A field declared [name: Optional[T] = Field(...)]: the key has to be
    there, [None] is kept. *)
Definition nullable {T} (name : string) (validator : value -> option T)
  (values : dict) : result (option T) :=
  match dict_get name values with
  | None => Raise (ValidationError name)
  | Some VNone => Ok None
  | Some v =>
      match validator v with
      | Some t => Ok (Some t)
      | None => Raise (ValidationError name)
      end
  end.

Section Model.

Context `{Validators}.

(** [id: PyObjectId = Field(default_factory=PyObjectId, alias="_id")],
    with [allow_population_by_field_name]. *)
Definition id_field (values : dict) : result ObjectId :=
  let given :=
    match dict_get "_id" values with
    | Some v => Some v
    | None => dict_get "id" values
    end in
  match given with
  | None => Ok default_factory
  | Some VNone => Raise (ValidationError "_id")
  | Some v =>
      match PyObjectId_validate v with
      | Ok oid => Ok oid
      | Raise _ => Raise (ValidationError "_id")
      end
  end.

(** [Sale] built from the keyword arguments [values].  Of the errors
    pydantic collects, the first one is reported. *)
Definition Sale_init (values : dict) : result Sale.t :=
  try id <- id_field values;;
  try key <- required "key" str_validator values;;
  try distribution <- required "distribution" str_validator values;;
  try rep <- required "rep" str_validator values;;
  try item <- required "item" str_validator values;;
  try sale <- required "sale" float_validator values;;
  try quantity <- required "quantity" int_validator values;;
  try uom <- required "uom" str_validator values;;
  try date <- required "date" datetime_validator values;;
  try customer <- required "customer" str_validator values;;
  try ship_to_name <- required "ship_to_name" str_validator values;;
  try addr1 <- required "addr1" str_validator values;;
  try addr2 <- nullable "addr2" str_validator values;;
  try city <- required "city" str_validator values;;
  try state <- required "state" str_validator values;;
  try postal <- required "postal" str_validator values;;
  try country <- nullable "country" str_validator values;;
  try contract <- nullable "contract" str_validator values;;
  try cust_nbr <- nullable "cust_nbr" str_validator values;;
  try notes <- nullable "notes" dict_validator values;;
  try gpo <- nullable "gpo" str_validator values;;
  try rebate <- nullable "rebate" float_validator values;;
  try net <- nullable "net" float_validator values;;
  Ok (Sale.mk id key distribution rep item sale quantity uom date customer
        ship_to_name addr1 addr2 city state postal country contract
        cust_nbr notes gpo rebate net).

End Model.

(** ** Responses *)

Record StreamingResponse : Type := mkresponse {
  body_iterator : list string;
  media_type : string;
  headers : list (string * string)
}.

(** [StreamingResponse(content, media_type=media_type)]: the content
    type is the first header. *)
Definition StreamingResponse_init (content : list string)
  (media_type : string) : StreamingResponse :=
  {| body_iterator := content;
     media_type := media_type;
     headers := [("content-type", (media_type ++ "; charset=utf-8")%string)] |}.

Fixpoint set_raw (k v : string) (hs : list (string * string))
  : list (string * string) :=
  match hs with
  | [] => [(k, v)]
  | (k', v') :: hs' =>
      if String.eqb k k' then (k, v) :: hs' else (k', v') :: set_raw k v hs'
  end.

(** [response.headers[name] = v]; header names are kept in lower case. *)
Definition set_header (r : StreamingResponse) (name v : string)
  : StreamingResponse :=
  {| body_iterator := body_iterator r;
     media_type := media_type r;
     headers := set_raw (lower name) v (headers r) |}.

Fixpoint get_raw (k : string) (hs : list (string * string)) : option string :=
  match hs with
  | [] => None
  | (k', v) :: hs' => if String.eqb k k' then Some v else get_raw k hs'
  end.

(** [response.headers.get(name)], whatever the case of [name]. *)
Definition get_header (r : StreamingResponse) (name : string)
  : option string :=
  get_raw (lower name) (headers r).

(** What [get_sales] returns: a string, or a list of [Sale]; neither is
    a response object, and the handler sets no header. *)
Inductive sales_view : Type :=
| Text (body : string)
| Sales (l : list Sale.t).

(** ** The handlers

    [get_sales] does not use its [request]. *)

Section Handlers.

Context `{Printer} `{Validators}.

Open Scope handler_scope.

(** The function [get_sales] applies to every row. *)
Definition net_of (x : Series) : result value :=
  try rebate <- getitem x "rebate";;
  if eq_zero rebate then getitem x "sale" else getitem x "rebate".

Definition get_sales (format : string) : M sales_view :=
  records <- find All;;
  let df := DataFrame_of records in
  net <- lift (apply_rows net_of df);;
  df <- lift (setitem df "net" net);;
  if String.eqb format "csv" then
    let stream := to_csv "|" df in
    ret (Text stream)
  else
    sales <- lift (rmap Sale_init (to_dict_records df));;
    ret (Sales sales).

Definition months : list string :=
  [ "january"; "february"; "march"; "april"; "may"; "june"; "july";
    "august"; "september"; "october"; "november"; "december" ].

Definition years : list string := [ "2022"; "2023" ].

Definition get_sales_for_period (month year : string) : M StreamingResponse :=
  if negb (contains months (lower month)) then
    raise (HTTPException 404 "Month not found")
  else if negb (contains years year) then
    raise (HTTPException 404 "Year not found")
  else
    records <- find (Regex "key" (month ++ "-" ++ year ++ "$")%string "i");;
    let df := DataFrame_of records in
    let stream := to_csv "," df in
    let response := StreamingResponse_init [stream] "text/csv" in
    let response :=
      set_header response "Content-Disposition"
        "attachment; filename=export.csv" in
    ret response.

End Handlers.

(** ** Notions the statements below are written with *)

(** The frame [get_sales] serializes: the frame of the records with the
    column [net] assigned. *)
Definition net_frame (records : list dict) : result DataFrame :=
  try net <- apply_rows net_of (DataFrame_of records);;
  setitem (DataFrame_of records) "net" net.

(** The value [net_of] finds for a record once the frame has the columns
    it looks up. *)
Definition derived_net (r : dict) : value :=
  if eq_zero (cell r "rebate") then cell r "sale" else cell r "rebate".

(** The frame with [net] assigned, written out. *)
Definition net_frame_value (records : list dict) : DataFrame :=
  {| columns := add_label (labels records) "net";
     rows := map (fun r => set_cell "net" (derived_net r)
                             (align (labels records) r)) records |}.

Definition has_column (label : string) (records : list dict) : bool :=
  existsb (fun r => contains (keys r) label) records.

(** The stores on which the assignment of [net] goes through: some
    record has a [rebate], and some record has a [sale] if a rebate is
    zero. *)
Definition net_defined (records : list dict) : bool :=
  has_column "rebate" records
  && (negb (existsb (fun r => eq_zero (cell r "rebate")) records)
      || has_column "sale" records).


(** The query of [get_sales_for_period]. *)
Definition period_query (month year : string) : query :=
  Regex "key" (month ++ "-" ++ year ++ "$") "i".

Definition period_records (month year : string) (db : Collection)
  : list dict :=
  map items (filter (matches (period_query month year)) db).

(** The key of [d] is a string that ends, whatever its case, with
    [suffix], or with [suffix] and one line feed. *)
Definition key_ends_with (suffix : string) (d : document) : bool :=
  match dict_get "key" (items d) with
  | Some (VStr s) =>
      endswith (lower s) suffix || endswith (lower s) (suffix ++ str LF)
  | _ => false
  end.

(** The period filter in the words of the specification: the key ends,
    whatever the case, with a dash, the month, a dash and the year. *)
Definition spec_period_match (month year : string) (d : document) : bool :=
  match dict_get "key" (items d) with
  | Some (VStr s) => endswith (lower s) (lower ("-" ++ month ++ "-" ++ year))
  | _ => false
  end.

Definition valid_period (month year : string) : bool :=
  contains months (lower month) && contains years year.

(** A cell of the frame [get_sales] serializes: [net] is derived, every
    other cell is the stored value. *)
Definition derived_cell (r : dict) (label : string) : value :=
  if String.eqb label "net" then derived_net r else cell r label.

Definition derived_record (cols : list string) (r : dict) : Series :=
  map (fun c => (c, derived_cell r c)) cols.

(** The columns of that frame. *)
Definition net_columns (db : Collection) : list string :=
  add_label (labels (map items db)) "net".

(** The fields of [Sale] that are read from the columns of the store;
    [id] has an alias and a default, [net] is assigned by [get_sales]. *)
Definition stored_fields : list string :=
  [ "key"; "distribution"; "rep"; "item"; "sale"; "quantity"; "uom"; "date";
    "customer"; "ship_to_name"; "addr1"; "addr2"; "city"; "state"; "postal";
    "country"; "contract"; "cust_nbr"; "notes"; "gpo"; "rebate" ].

(** A [Sale] conforms to a record when each of its fields is what the
    validator of the declared type makes of the value under the field's
    name. *)
Definition conforms `{Validators} (x : dict) (s : Sale.t) : Prop :=
  id_field x = Ok (Sale.id s)
  /\ required "key" str_validator x = Ok (Sale.key s)
  /\ required "distribution" str_validator x = Ok (Sale.distribution s)
  /\ required "rep" str_validator x = Ok (Sale.rep s)
  /\ required "item" str_validator x = Ok (Sale.item s)
  /\ required "sale" float_validator x = Ok (Sale.sale s)
  /\ required "quantity" int_validator x = Ok (Sale.quantity s)
  /\ required "uom" str_validator x = Ok (Sale.uom s)
  /\ required "date" datetime_validator x = Ok (Sale.date s)
  /\ required "customer" str_validator x = Ok (Sale.customer s)
  /\ required "ship_to_name" str_validator x = Ok (Sale.ship_to_name s)
  /\ required "addr1" str_validator x = Ok (Sale.addr1 s)
  /\ nullable "addr2" str_validator x = Ok (Sale.addr2 s)
  /\ required "city" str_validator x = Ok (Sale.city s)
  /\ required "state" str_validator x = Ok (Sale.state s)
  /\ required "postal" str_validator x = Ok (Sale.postal s)
  /\ nullable "country" str_validator x = Ok (Sale.country s)
  /\ nullable "contract" str_validator x = Ok (Sale.contract s)
  /\ nullable "cust_nbr" str_validator x = Ok (Sale.cust_nbr s)
  /\ nullable "notes" dict_validator x = Ok (Sale.notes s)
  /\ nullable "gpo" str_validator x = Ok (Sale.gpo s)
  /\ nullable "rebate" float_validator x = Ok (Sale.rebate s)
  /\ nullable "net" float_validator x = Ok (Sale.net s).

(** The response [get_sales_for_period] builds from the records found. *)
Definition period_response `{Printer} (records : list dict)
  : StreamingResponse :=
  set_header
    (StreamingResponse_init [to_csv "," (DataFrame_of records)] "text/csv")
    "Content-Disposition" "attachment; filename=export.csv".


(** ** An instance of the parameters

    Used to run the handlers on stores written out in full: a printer
    for the kinds of cell these stores hold, and validators that take a
    value of the declared type (and an integer where a float is
    declared). *)
Module Plain.

Definition digit (n : N) : string := str (ascii_of_N (48 + n)).

Fixpoint decimal (fuel : nat) (n : N) : string :=
  match fuel with
  | O => digit (n mod 10)
  | S fuel' =>
      if (n <? 10)%N then digit n
      else decimal fuel' (n / 10) ++ digit (n mod 10)
  end.

Definition natural (p : positive) : string := decimal (Pos.size_nat p) (Npos p).

Definition hexdigit (n : N) : string :=
  let k := N.to_nat n in
  str (ascii_of_nat (if (k <? 10)%nat then 48 + k else 87 + k)).

Definition hex (b : N) : string := hexdigit (b / 16) ++ hexdigit (b mod 16).

Definition show (v : value) : string :=
  match v with
  | VStr s => s
  | VObjectId b => String.concat EmptyString (map hex b)
  | VInt (Z0) => "0"
  | VInt (Zpos p) => natural p
  | VInt (Zneg p) => "-" ++ natural p
  | VBool true => "True"
  | VBool false => "False"
  | VDatetime (Zpos p) => natural p
  | VDict d =>
      "{" ++ join ", " (map (fun kv : string * string =>
                              ("'" ++ fst kv ++ "': '" ++ snd kv ++ "'")%string) d)
          ++ "}"
  | _ => "?"
  end.

Definition float_of_Z (n : Z) : spec_float :=
  match n with
  | Z0 => S754_zero false
  | Zpos p => S754_finite false p 0
  | Zneg p => S754_finite true p 0
  end.

#[export] Instance printer : Printer := {| cell_repr := show |}.

#[export] Instance validators : Validators := {|
  str_validator v := match v with VStr s => Some s | _ => None end;
  float_validator v :=
    match v with
    | VFloat f => Some f
    | VInt n => Some (float_of_Z n)
    | _ => None
    end;
  int_validator v := match v with VInt n => Some n | _ => None end;
  datetime_validator v := match v with VDatetime t => Some t | _ => None end;
  dict_validator v := match v with VDict d => Some d | _ => None end;
  default_factory := []
|}.

Definition oid (hex : string) : value :=
  match fromhex hex with
  | Some b => VObjectId b
  | None => VNone
  end.

(** The example of the [Sale] schema. *)
Definition example : document :=
  mkdoc (oid "63c849031aeef6dd27ed3bac")
    [ ("key", VStr "NDC-DECEMBER-2022");
      ("distribution", VStr "NDC");
      ("rep", VStr "Rep40");
      ("item", VStr "851");
      ("sale", VInt 68);
      ("quantity", VInt 1);
      ("uom", VStr "CS");
      ("date", VDatetime 1671667200000);
      ("customer", VStr "Marc Trager");
      ("ship_to_name", VStr "Marc Trager");
      ("addr1", VStr "14273 Mulberry Dr");
      ("addr2", VStr EmptyString);
      ("city", VStr "Los Gatos");
      ("state", VStr "CA");
      ("postal", VStr "95032");
      ("country", VStr EmptyString);
      ("contract", VStr "SPECIAL PRICING");
      ("cust_nbr", VStr EmptyString);
      ("notes", VDict [("invoice", "3857526")]);
      ("gpo", VStr EmptyString);
      ("rebate", VInt 0);
      ("net", VInt 68) ].

(** A sale with a rebate of 5, and one stored without a rebate. *)
Definition with_rebate : document :=
  mkdoc (oid "63c849031aeef6dd27ed3bad")
    [ ("key", VStr "NDC-MAY-2023"); ("sale", VInt 10); ("rebate", VInt 5) ].

Definition without_rebate : document :=
  mkdoc (oid "63c849031aeef6dd27ed3bae")
    [ ("key", VStr "NDC-MAY-2023"); ("sale", VInt 68) ].

(** A sale stored with a [net] other than the one the rule gives. *)
Definition stale : document :=
  mkdoc (oid "63c849031aeef6dd27ed3bb0")
    [ ("key", VStr "NDC-DECEMBER-2022"); ("sale", VInt 68); ("rebate", VInt 0);
      ("net", VInt 1) ].

(** A key that ends with the month and the year but has no dash before
    the month. *)
Definition dismay : document :=
  mkdoc (oid "63c849031aeef6dd27ed3baf") [ ("key", VStr "DISMAY-2022") ].

(** A document of another shape, under an identifier that is no
    [ObjectId]. *)
Definition stray : document :=
  mkdoc (VInt 7) [ ("key", VStr "NDC-MAY-2023"); ("rebate", VInt 5) ].

End Plain.

(** ** Notions of the further properties *)

(** [str(oid)], the encoder the model declares for [ObjectId]: two
    lower-case hexadecimal digits a byte. *)
Definition hexchar (n : N) : ascii :=
  ascii_of_N (if (n <? 10)%N then 48 + n else 87 + n).

Fixpoint ObjectId_str (oid : ObjectId) : string :=
  match oid with
  | [] => EmptyString
  | b :: oid' =>
      String (hexchar (b / 16)) (String (hexchar (b mod 16)) (ObjectId_str oid'))
  end.

Fixpoint no_space (s : string) : bool :=
  match s with
  | EmptyString => true
  | String c s' => negb (is_space c) && no_space s'
  end.

(** The fields of [Sale] declared without [Optional], [id] apart. *)
Definition not_optional_fields : list string :=
  [ "key"; "distribution"; "rep"; "item"; "sale"; "quantity"; "uom"; "date";
    "customer"; "ship_to_name"; "addr1"; "city"; "state"; "postal" ].

(** The keys [Sale] looks up. *)
Definition field_keys : list string :=
  "_id" :: "id" :: stored_fields ++ ["net"].



(** * Properties *)

(** ** Lists and results *)

Lemma existsb_In {A} (p : A -> bool) (l : list A) (a : A) :
  In a l -> p a = true -> existsb p l = true.
Proof. intros Hin Hp. apply existsb_exists. exists a. split; assumption. Qed.

Lemma filter_none {A} (p : A -> bool) (l : list A) :
  (forall a, In a l -> p a = false) -> filter p l = [].
Proof.
  induction l as [|a l IH]; intros Hp; simpl; [reflexivity|].
  rewrite (Hp a (or_introl eq_refl)). apply IH.
  intros b Hb. apply Hp. right. exact Hb.
Qed.

Lemma Forall2_impl_In {A B} (R Q : A -> B -> Prop) (l : list A) (l' : list B) :
  (forall a b, In a l -> R a b -> Q a b) -> Forall2 R l l' -> Forall2 Q l l'.
Proof.
  intros Himp HR. induction HR as [|a b l l' Hab HR IH]; constructor.
  - apply Himp; [left; reflexivity | exact Hab].
  - apply IH. intros a' b' Hin. apply Himp. right. exact Hin.
Qed.


(** [rmap] stops at the first element on which [f] raises. *)
Lemma rmap_raise {A B} (f : A -> result B) (l : list A) (a : A) (e : exn) :
  In a l -> f a = Raise e -> exists e', rmap f l = Raise e'.
Proof.
  induction l as [|b l IH]; intros Hin Hf; simpl; [contradiction|].
  destruct Hin as [->|Hin].
  - rewrite Hf. simpl. eauto.
  - destruct (f b); simpl; [|eauto].
    destruct (IH Hin Hf) as [e' ->]. simpl. eauto.
Qed.

Lemma rmap_map_ok {A B C} (f : B -> result C) (h : A -> B) (g : A -> C)
  (l : list A) :
  (forall a, In a l -> f (h a) = Ok (g a)) -> rmap f (map h l) = Ok (map g l).
Proof.
  induction l as [|a l IH]; intros Hf; simpl; [reflexivity|].
  rewrite (Hf a (or_introl eq_refl)). simpl.
  rewrite IH; [reflexivity|]. intros b Hb. apply Hf. right. exact Hb.
Qed.


Lemma rmap_map_inv {A B C} (f : B -> result C) (h : A -> B) (l : list A)
  (cs : list C) :
  rmap f (map h l) = Ok cs -> Forall2 (fun a c => f (h a) = Ok c) l cs.
Proof.
  revert cs. induction l as [|a l IH]; intros cs; simpl.
  - intros [= <-]. constructor.
  - destruct (f (h a)) as [c|e] eqn:Ha; cbn [rbind]; [|discriminate].
    destruct (rmap f (map h l)) as [cs'|e] eqn:Hl; cbn [rbind]; [|discriminate].
    intros [= <-]. constructor; [exact Ha | apply IH; reflexivity].
Qed.

(** ** Dictionaries and column labels *)

Lemma contains_In (l : list string) (k : string) :
  contains l k = true <-> In k l.
Proof.
  unfold contains. rewrite existsb_exists. split.
  - intros [x [Hin Hx]]. apply String.eqb_eq in Hx. subst. exact Hin.
  - intros Hin. exists k. split; [exact Hin | apply String.eqb_refl].
Qed.

Lemma contains_keys (k : string) (r : dict) :
  contains (keys r) k = match dict_get k r with Some _ => true | None => false end.
Proof.
  induction r as [|[k' v] r IH]; simpl; [reflexivity|].
  destruct (String.eqb k k'); simpl; [reflexivity | exact IH].
Qed.

Lemma contains_app (l1 l2 : list string) (k : string) :
  contains (l1 ++ l2) k = contains l1 k || contains l2 k.
Proof. unfold contains. apply existsb_app. Qed.

Lemma contains_add_label (acc : list string) (a k : string) :
  contains (add_label acc a) k = contains acc k || String.eqb k a.
Proof.
  unfold add_label.
  destruct (contains acc a) eqn:Ha.
  - destruct (String.eqb_spec k a) as [->|_].
    + rewrite Ha. reflexivity.
    + rewrite orb_false_r. reflexivity.
  - rewrite contains_app. simpl. rewrite orb_false_r. reflexivity.
Qed.

Lemma contains_fold_add_label (ks acc : list string) (k : string) :
  contains (fold_left add_label ks acc) k = contains acc k || contains ks k.
Proof.
  revert acc. induction ks as [|a ks IH]; intros acc; simpl.
  - rewrite orb_false_r. reflexivity.
  - rewrite IH, contains_add_label, orb_assoc. reflexivity.
Qed.

(** A label is a column of the frame exactly when some record has it. *)
Lemma contains_labels (records : list dict) (k : string) :
  contains (labels records) k = has_column k records.
Proof.
  unfold labels. rewrite contains_fold_add_label. simpl.
  induction records as [|r records IH]; simpl; [reflexivity|].
  rewrite contains_app, IH. reflexivity.
Qed.

Lemma has_column_true (c : string) (db : Collection) :
  has_column c (map items db) = true
  <-> exists d v, In d db /\ dict_get c (items d) = Some v.
Proof.
  unfold has_column. rewrite existsb_exists. split.
  - intros [r [Hr Hc]]. apply in_map_iff in Hr. destruct Hr as [d [<- Hd]].
    rewrite contains_keys in Hc.
    destruct (dict_get c (items d)) as [v|] eqn:Hv; [|discriminate].
    exists d, v. split; [exact Hd | exact Hv].
  - intros [d [v [Hd Hv]]]. exists (items d). split; [apply in_map; exact Hd|].
    rewrite contains_keys, Hv. reflexivity.
Qed.

Lemma add_label_cons (a l : string) (cols : list string) :
  add_label (a :: cols) l
  = if String.eqb l a then a :: cols else a :: add_label cols l.
Proof.
  unfold add_label. simpl.
  destruct (String.eqb l a); simpl; [reflexivity|].
  destruct (contains cols l); reflexivity.
Qed.

Lemma NoDup_add_label (acc : list string) (k : string) :
  NoDup acc -> NoDup (add_label acc k).
Proof.
  intros Hnd. unfold add_label.
  destruct (contains acc k) eqn:Hk; [exact Hnd|].
  apply NoDup_app; [exact Hnd | repeat constructor; intros [] |].
  intros x Hx [<-|[]].
  apply contains_In in Hx. congruence.
Qed.

(** No label is a column twice. *)
Lemma NoDup_labels (records : list dict) : NoDup (labels records).
Proof.
  unfold labels.
  assert (Hgen : forall ks acc, NoDup acc -> NoDup (fold_left add_label ks acc)).
  { induction ks as [|k ks IH]; intros acc Hacc; simpl; [exact Hacc|].
    apply IH. apply NoDup_add_label. exact Hacc. }
  apply Hgen. constructor.
Qed.

(** ** Rows *)

Lemma dict_get_align (cols : list string) (r : dict) (c : string) :
  dict_get c (align cols r) = if contains cols c then Some (cell r c) else None.
Proof.
  induction cols as [|a cols IH]; simpl; [reflexivity|].
  destruct (String.eqb_spec c a) as [->|_]; simpl; [reflexivity | exact IH].
Qed.

Lemma dict_get_derived_record (cols : list string) (r : dict) (c : string) :
  dict_get c (derived_record cols r)
  = if contains cols c then Some (derived_cell r c) else None.
Proof.
  induction cols as [|a cols IH]; simpl; [reflexivity|].
  destruct (String.eqb_spec c a) as [->|_]; simpl; [reflexivity | exact IH].
Qed.

Lemma set_cells_map (label : string) (g : dict -> value) (h : dict -> Series)
  (records : list dict) :
  set_cells label (map g records) (map h records)
  = map (fun r => set_cell label (g r) (h r)) records.
Proof.
  induction records as [|r records IH]; simpl; [reflexivity|].
  rewrite IH. reflexivity.
Qed.

(** Assigning a cell of an aligned row gives the row of the columns with
    that label, the assigned label holding the value. *)
Lemma set_cell_align (label : string) (v : value) (cols : list string)
  (r : dict) :
  NoDup cols ->
  set_cell label v (align cols r)
  = map (fun c => (c, if String.eqb c label then v else cell r c))
        (add_label cols label).
Proof.
  induction cols as [|a cols IH]; intros Hnd.
  - unfold add_label. simpl. rewrite String.eqb_refl. reflexivity.
  - inversion Hnd as [|a' cols' Hnotin Hnd']; subst.
    rewrite add_label_cons. simpl.
    destruct (String.eqb_spec label a) as [->|Hne].
    + simpl. rewrite String.eqb_refl. f_equal.
      unfold align. apply map_ext_in. intros c Hc.
      destruct (String.eqb_spec c a) as [->|_]; [contradiction | reflexivity].
    + simpl. destruct (String.eqb_spec a label) as [->|_]; [contradiction|].
      f_equal. apply IH. exact Hnd'.
Qed.

Lemma rows_net_frame_value (records : list dict) :
  rows (net_frame_value records)
  = map (derived_record (add_label (labels records) "net")) records.
Proof.
  unfold net_frame_value. cbn [rows]. apply map_ext. intros r.
  rewrite set_cell_align by apply NoDup_labels. reflexivity.
Qed.

(** ** Strings *)

Lemma app_assoc_string (a b c : string) :
  ((a ++ b) ++ c)%string = (a ++ b ++ c)%string.
Proof. induction a as [|x a IH]; simpl; [reflexivity | rewrite IH; reflexivity]. Qed.


Lemma lower_app (s t : string) : lower (s ++ t) = (lower s ++ lower t)%string.
Proof. induction s as [|c s IH]; simpl; [reflexivity | rewrite IH; reflexivity]. Qed.

Lemma length_app (s t : string) :
  String.length (s ++ t) = String.length s + String.length t.
Proof. induction s as [|c s IH]; simpl; [reflexivity | rewrite IH; reflexivity]. Qed.

Lemma substring_app (s t : string) :
  substring 0 (String.length s) (s ++ t) = s.
Proof.
  induction s as [|c s IH]; simpl.
  - destruct t; reflexivity.
  - rewrite IH. reflexivity.
Qed.

Lemma endswith_true (s t : string) :
  endswith s t = true <-> exists p, s = (p ++ t)%string.
Proof.
  induction s as [|c s IH].
  - destruct t as [|d t]; simpl.
    + split; [intros _; exists EmptyString; reflexivity | reflexivity].
    + split; [discriminate|]. intros [p Hp].
      destruct p; simpl in Hp; discriminate.
  - change (endswith (String c s) t)
      with (if String.eqb (String c s) t then true else endswith s t).
    destruct (String.eqb_spec (String c s) t) as [<-|Hne].
    + split; [intros _; exists EmptyString; reflexivity | reflexivity].
    + rewrite IH. split.
      * intros [p ->]. exists (String c p). reflexivity.
      * intros [p Hp]. destruct p as [|c' p]; simpl in Hp.
        -- contradiction.
        -- injection Hp as _ ->. exists p. reflexivity.
Qed.

Lemma ends_with_dollar_app (s : string) :
  ends_with_dollar (s ++ "$") = Some s.
Proof.
  unfold ends_with_dollar.
  assert (He : endswith (s ++ "$") "$" = true).
  { apply endswith_true. exists s. reflexivity. }
  rewrite He, length_app. simpl.
  replace (String.length s + 1 - 1) with (String.length s) by lia.
  rewrite substring_app. reflexivity.
Qed.

Lemma literal_lower (s : string) : literal (lower s) = true -> literal s = true.
Proof.
  induction s as [|c s IH]; simpl; [reflexivity|].
  intros Hl. apply andb_prop in Hl. destruct Hl as [Hc Hs].
  rewrite (IH Hs), andb_true_r.
  revert Hc. destruct c as [[] [] [] [] [] [] [] []]; vm_compute; congruence.
Qed.

Lemma literal_app (s t : string) :
  literal (s ++ t) = literal s && literal t.
Proof.
  induction s as [|c s IH]; simpl; [reflexivity|].
  rewrite IH, andb_assoc. reflexivity.
Qed.

(** ** Rows of text *)





(** ** The assignment of [net] *)

(** The values that equal zero. *)
Lemma eq_zero_true (v : value) :
  eq_zero v = true
  <-> v = VBool false \/ v = VInt 0 \/ exists s, v = VFloat (S754_zero s).
Proof.
  split.
  - destruct v as [|[]|n|f| | | |]; simpl; try discriminate; auto.
    + intros Hn. apply Z.eqb_eq in Hn. subst. auto.
    + destruct f as [s|s| |s m e]; try discriminate;
        try (destruct s; discriminate).
      intros _. right. right. exists s. reflexivity.
  - intros [->|[->|[s ->]]]; reflexivity.
Qed.


Lemma net_of_align (cols : list string) (r : dict) :
  contains cols "rebate" = true ->
  (eq_zero (cell r "rebate") = true -> contains cols "sale" = true) ->
  net_of (align cols r) = Ok (derived_net r).
Proof.
  intros Hreb Hsale. unfold net_of, derived_net, getitem.
  rewrite dict_get_align, Hreb. simpl.
  destruct (eq_zero (cell r "rebate")) eqn:Hz; [|reflexivity].
  rewrite dict_get_align, (Hsale eq_refl). reflexivity.
Qed.

Lemma net_of_without_rebate (cols : list string) (r : dict) :
  contains cols "rebate" = false ->
  net_of (align cols r) = Raise (KeyError "rebate").
Proof.
  intros Hreb. unfold net_of, getitem.
  rewrite dict_get_align, Hreb. reflexivity.
Qed.

Lemma net_of_without_sale (cols : list string) (r : dict) :
  contains cols "rebate" = true ->
  eq_zero (cell r "rebate") = true ->
  contains cols "sale" = false ->
  net_of (align cols r) = Raise (KeyError "sale").
Proof.
  intros Hreb Hz Hsale. unfold net_of, getitem.
  rewrite dict_get_align, Hreb. simpl. rewrite Hz.
  rewrite dict_get_align, Hsale. reflexivity.
Qed.

(** Where [net] can be assigned, the frame is [net_frame_value]. *)
Lemma net_frame_ok (records : list dict) :
  net_defined records = true ->
  net_frame records = Ok (net_frame_value records).
Proof.
  unfold net_defined. intros Hd.
  apply andb_prop in Hd. destruct Hd as [Hreb Hsale].
  assert (Hrows :
    rmap net_of (map (align (labels records)) records)
    = Ok (map derived_net records)).
  { apply rmap_map_ok. intros r Hr. apply net_of_align.
    - rewrite contains_labels. exact Hreb.
    - intros Hz. rewrite contains_labels.
      apply orb_prop in Hsale. destruct Hsale as [Hnone|Hsale]; [|exact Hsale].
      apply negb_true_iff in Hnone.
      rewrite (existsb_In _ _ r Hr Hz) in Hnone. discriminate. }
  unfold net_frame, apply_rows, DataFrame_of. cbn [rows columns].
  destruct records as [|r records]; [discriminate|].
  cbn [map] in *. rewrite Hrows. cbn [rbind setitem rows columns].
  unfold net_frame_value. f_equal. f_equal.
  change (align (labels (r :: records)) r
          :: map (align (labels (r :: records))) records)
    with (map (align (labels (r :: records))) (r :: records)).
  change (derived_net r :: map derived_net records)
    with (map derived_net (r :: records)).
  apply set_cells_map.
Qed.

(** Elsewhere the assignment raises: on the empty store, on a store
    without a [rebate], on one with a zero rebate and without a [sale]. *)
Lemma net_frame_raise (records : list dict) :
  net_defined records = false -> exists e, net_frame records = Raise e.
Proof.
  unfold net_defined. intros Hd.
  unfold net_frame, apply_rows, DataFrame_of. cbn [rows columns].
  destruct records as [|r records]; [simpl; eauto|].
  cbn [map].
  assert (Hraise : exists e,
    rmap net_of (map (align (labels (r :: records))) (r :: records)) = Raise e).
  { apply andb_false_iff in Hd. destruct Hd as [Hreb|Hsale].
    - apply rmap_raise with (a := align (labels (r :: records)) r)
                            (e := KeyError "rebate").
      + left. reflexivity.
      + apply net_of_without_rebate. rewrite contains_labels. exact Hreb.
    - apply orb_false_iff in Hsale. destruct Hsale as [Hzero Hsale].
      apply negb_false_iff in Hzero.
      apply existsb_exists in Hzero. destruct Hzero as [r0 [Hin Hz]].
      destruct (has_column "rebate" (r :: records)) eqn:Hreb.
      + apply rmap_raise with (a := align (labels (r :: records)) r0)
                              (e := KeyError "sale").
        * apply in_map. exact Hin.
        * apply net_of_without_sale; rewrite ?contains_labels; assumption.
      + apply rmap_raise with (a := align (labels (r :: records)) r0)
                              (e := KeyError "rebate").
        * apply in_map. exact Hin.
        * apply net_of_without_rebate. rewrite contains_labels. exact Hreb. }
  destruct Hraise as [e He]. cbn [map] in He. rewrite He. simpl. eauto.
Qed.

Lemma contains_net_columns (db : Collection) (c : string) :
  contains (net_columns db) c
  = has_column c (map items db) || String.eqb c "net".
Proof.
  unfold net_columns. rewrite contains_add_label, contains_labels. reflexivity.
Qed.


(** Every row [get_sales] validates carries the stored [_id]. *)
Lemma stored_id (db : Collection) (d : document) :
  In d db ->
  dict_get "_id" (derived_record (net_columns db) (items d)) = Some (doc_id d).
Proof.
  intros Hd. rewrite dict_get_derived_record, contains_net_columns.
  assert (Hcol : has_column "_id" (map items db) = true).
  { apply has_column_true. exists d, (doc_id d). split; [exact Hd|].
    reflexivity. }
  rewrite Hcol. reflexivity.
Qed.

(** ** The period query *)

Lemma lower_year (year : string) : contains years year = true -> lower year = year.
Proof.
  unfold years. simpl. intros Hy.
  repeat (apply orb_prop in Hy; destruct Hy as [Hy|Hy];
          [apply String.eqb_eq in Hy; subst; reflexivity|]).
  discriminate.
Qed.

Lemma matches_period (month year : string) (d : document) :
  matches (period_query month year) d
  = key_ends_with (lower month ++ "-" ++ lower year) d.
Proof.
  unfold matches, period_query, key_ends_with.
  destruct (dict_get "key" (items d)) as [[| | | |s| | |]|]; try reflexivity.
  unfold regex_search.
  replace (month ++ "-" ++ year ++ "$")%string
    with ((month ++ "-" ++ year) ++ "$")%string
    by (rewrite !app_assoc_string; reflexivity).
  rewrite ends_with_dollar_app.
  change (has_char "i" "i") with true. cbv iota.
  rewrite !lower_app. reflexivity.
Qed.

(** The pattern the handler builds is made of literal characters. *)
Lemma period_pattern_literal (month year : string) :
  valid_period month year = true -> literal (month ++ "-" ++ year) = true.
Proof.
  unfold valid_period. intros Hv. apply andb_prop in Hv.
  destruct Hv as [Hm Hy].
  rewrite !literal_app. apply andb_true_intro. split.
  - apply literal_lower. revert Hm. unfold months. simpl.
    intros Hm.
    repeat (apply orb_prop in Hm; destruct Hm as [Hm|Hm];
            [apply String.eqb_eq in Hm; rewrite Hm; reflexivity|]).
    discriminate.
  - revert Hy. unfold years. simpl. intros Hy.
    repeat (apply orb_prop in Hy; destruct Hy as [Hy|Hy];
            [apply String.eqb_eq in Hy; subst; reflexivity|]).
    discriminate.
Qed.

Lemma period_records_fold (month year : string) (db : Collection) :
  period_records month year db
  = map items (filter (key_ends_with (lower month ++ "-" ++ lower year)) db).
Proof.
  unfold period_records. f_equal. apply filter_ext.
  intros d. apply matches_period.
Qed.

Lemma filter_All (db : Collection) : filter (matches All) db = db.
Proof.
  induction db as [|d db IH]; simpl; [reflexivity | rewrite IH; reflexivity].
Qed.

(** ** The handlers, run *)

Section Runs.

Context `{Printer} `{Validators}.

Lemma get_sales_run (format : string) (db : Collection) :
  get_sales format db
  = (match net_frame (map items db) with
     | Ok df =>
         if String.eqb format "csv" then Ok (Text (to_csv "|" df))
         else match rmap Sale_init (rows df) with
              | Ok sales => Ok (Sales sales)
              | Raise e => Raise e
              end
     | Raise e => Raise e
     end, db).
Proof.
  unfold get_sales, bind, find, lift, ret, net_frame, to_dict_records.
  rewrite filter_All.
  destruct (apply_rows net_of (DataFrame_of (map items db))) as [net|e];
    cbn [rbind]; [|reflexivity].
  destruct (setitem (DataFrame_of (map items db)) "net" net) as [df|e];
    [|reflexivity].
  destruct (String.eqb format "csv"); [reflexivity|].
  destruct (rmap Sale_init (rows df)); reflexivity.
Qed.

Lemma get_sales_for_period_run (month year : string) (db : Collection) :
  get_sales_for_period month year db
  = (if negb (contains months (lower month)) then
       Raise (HTTPException 404 "Month not found")
     else if negb (contains years year) then
       Raise (HTTPException 404 "Year not found")
     else Ok (period_response (period_records month year db)), db).
Proof.
  unfold get_sales_for_period, raise, bind, find, ret.
  destruct (contains months (lower month)); [|reflexivity].
  destruct (contains years year); reflexivity.
Qed.



Lemma get_sales_defined (format : string) (db : Collection) :
  net_defined (map items db) = true ->
  fst (get_sales format db)
  = if String.eqb format "csv" then
      Ok (Text (to_csv "|" (net_frame_value (map items db))))
    else match rmap Sale_init
                 (map (fun d => derived_record (net_columns db) (items d)) db)
         with
         | Ok sales => Ok (Sales sales)
         | Raise e => Raise e
         end.
Proof.
  intros Hd. rewrite get_sales_run, (net_frame_ok _ Hd). cbn [fst].
  rewrite rows_net_frame_value, map_map. reflexivity.
Qed.

Lemma get_sales_undefined (format : string) (db : Collection) :
  net_defined (map items db) = false ->
  exists e, fst (get_sales format db) = Raise e
            /\ fst (get_sales "csv" db) = Raise e.
Proof.
  intros Hd. rewrite !get_sales_run. cbn [fst].
  destruct (net_frame_raise _ Hd) as [e ->]. eauto.
Qed.


(** ** Validation *)

Lemma Sale_init_conforms (x : dict) (s : Sale.t) :
  Sale_init x = Ok s <-> conforms x s.
Proof.
  unfold Sale_init, conforms. split.
  - repeat match goal with
           | |- rbind ?r _ = Ok _ -> _ =>
               destruct r eqn:?; cbn [rbind]; [|discriminate]
           end.
    intros [= <-]. cbn. repeat split; reflexivity.
  - intros Hc. decompose [and] Hc. clear Hc.
    repeat match goal with
           | Hr : ?r = Ok _ |- rbind ?r _ = _ => rewrite Hr; cbn [rbind]
           end.
    destruct s; reflexivity.
Qed.





End Runs.

(** ** Sales for a period *)

Section Period.

Context `{Printer} `{Validators}.

(** C3.  [get_sales_for_period] raises exactly when the month, in lower
    case, is none of the twelve month names or the year is neither
    ["2022"] nor ["2023"], and what it raises is a 404.  The month is
    looked at first: the detail is ["Month not found"] whenever the
    month is wrong, whatever the year, and ["Year not found"] exactly
    when the month is right and the year is wrong. *)
Theorem period_validation (month year : string) (db : Collection) :
  (fst (get_sales_for_period month year db)
     = Raise (HTTPException 404 "Month not found")
   <-> contains months (lower month) = false)
  /\ (fst (get_sales_for_period month year db)
        = Raise (HTTPException 404 "Year not found")
      <-> contains months (lower month) = true /\ contains years year = false)
  /\ ((exists e, fst (get_sales_for_period month year db) = Raise e)
      <-> contains months (lower month) = false \/ contains years year = false)
  /\ ((exists response, fst (get_sales_for_period month year db) = Ok response)
      <-> contains months (lower month) = true /\ contains years year = true)
  /\ (forall e, fst (get_sales_for_period month year db) = Raise e ->
        exists detail, e = HTTPException 404 detail)
  /\ months = [ "january"; "february"; "march"; "april"; "may"; "june";
                "july"; "august"; "september"; "october"; "november";
                "december" ]
  /\ years = [ "2022"; "2023" ].
Proof.
  rewrite get_sales_for_period_run. cbn [fst].
  destruct (contains months (lower month)), (contains years year); cbn [negb];
    repeat split; try reflexivity; try discriminate; try tauto; eauto;
    try (intros [_ Hf]; discriminate Hf);
    try (intros [Hf _]; discriminate Hf);
    try (intros [r Hr]; discriminate Hr);
    try (intros [Hf|Hf]; discriminate Hf);
    try (intros e [= <-]; eauto);
    match goal with
    | Hr : exists _, Raise _ = Ok _ |- _ => destruct Hr as [r Hr]; discriminate Hr
    end.
Qed.



(** C9, as the code has it.  For a valid month and year and a
    collection in which no document matches the period query,
    [get_sales_for_period] raises nothing and returns the attachment
    [export.csv] of media type [text/csv]; its body has no column label
    and no record, and is the line terminator that ends the row of
    labels. *)
Theorem period_without_match (month year : string) (db : Collection) :
  valid_period month year = true ->
  (forall d, In d db -> matches (period_query month year) d = false) ->
  exists response,
    fst (get_sales_for_period month year db) = Ok response
    /\ (forall e, fst (get_sales_for_period month year db) <> Raise e)
    /\ period_records month year db = []
    /\ rows (DataFrame_of (period_records month year db)) = []
    /\ columns (DataFrame_of (period_records month year db)) = []
    /\ body_iterator response = [linesep]
    /\ media_type response = "text/csv"
    /\ get_header response "Content-Disposition"
       = Some "attachment; filename=export.csv".
Proof.
  unfold valid_period. intros Hv Hnone.
  apply andb_prop in Hv. destruct Hv as [Hm Hy].
  rewrite get_sales_for_period_run, Hm, Hy. cbn [negb fst].
  assert (Hrec : period_records month year db = []).
  { unfold period_records. rewrite (filter_none _ _ Hnone). reflexivity. }
  rewrite Hrec. eexists. split; [reflexivity|].
  split; [discriminate|]. repeat split.
Qed.

(** C2, as the code has it.  For a valid month and year
    [get_sales_for_period] answers with the documents, in stored order,
    whose [key] is a string that ends, whatever its case, with the month,
    a dash and the year (no dash is asked for before the month; one line
    feed after the year is let through).  The case of the month in the
    request does not change the answer. *)
Theorem period_filter (month year : string) (db : Collection) :
  valid_period month year = true ->
  fst (get_sales_for_period month year db)
    = Ok (period_response
            (map items
               (filter (key_ends_with (lower month ++ "-" ++ year)) db)))
  /\ (forall month',
        lower month' = lower month ->
        fst (get_sales_for_period month' year db)
        = fst (get_sales_for_period month year db))
  /\ (forall d,
        key_ends_with (lower month ++ "-" ++ year) d = true
        <-> exists s p,
              dict_get "key" (items d) = Some (VStr s)
              /\ (lower s = (p ++ lower month ++ "-" ++ year)%string
                  \/ lower s
                     = (p ++ (lower month ++ "-" ++ year) ++ str LF)%string))
  /\ literal (month ++ "-" ++ year) = true.
Proof.
  intros Hv. pose proof (period_pattern_literal month year Hv) as Hlit.
  unfold valid_period in Hv. apply andb_prop in Hv. destruct Hv as [Hm Hy].
  split; [|split; [|split]].
  - rewrite get_sales_for_period_run, Hm, Hy. cbn [negb fst].
    rewrite period_records_fold, (lower_year year Hy). reflexivity.
  - intros month' Hl. rewrite !get_sales_for_period_run. cbn [fst].
    rewrite Hl, !period_records_fold, Hl. reflexivity.
  - intros d. unfold key_ends_with.
    destruct (dict_get "key" (items d)) as [[| | | |s| | |]|];
      try (split; [discriminate | intros [s' [p [Hk _]]]; discriminate Hk]).
    rewrite orb_true_iff, !endswith_true. split.
    + intros [[p Hp]|[p Hp]]; exists s, p; split; auto.
    + intros [s' [p [Hk Hp]]]. injection Hk as <-.
      destruct Hp as [Hp|Hp]; [left | right]; exists p; exact Hp.
  - exact Hlit.
Qed.

End Period.

(** ** All sales *)

Section Sales.

Context `{Printer} `{Validators}.





(** ** Both handlers *)


End Sales.

(** * The handlers on stores written out in full

    The runs below use the instance [Plain] of the parameters. *)

Import Plain.



(** C2: for [may] of [2022] the handler returns the record whose key is
    [DISMAY-2022]; the key does not end with [-may-2022]. *)
Lemma period_dash_counterexample :
  fst (get_sales_for_period "may" "2022" [dismay])
  = Ok (period_response [items dismay])
  /\ body_iterator (period_response [items dismay])
     = [ "_id,key
63c849031aeef6dd27ed3baf,DISMAY-2022
" ]
  /\ spec_period_match "may" "2022" dismay = false
  /\ filter (spec_period_match "may" "2022") [dismay] = [].
Proof. repeat split. Qed.

Lemma period_filter_witness :
  valid_period "DECEMBER" "2022" = true
  /\ fst (get_sales_for_period "DECEMBER" "2022" [example; dismay])
     = Ok (period_response [items example])
  /\ fst (get_sales_for_period "december" "2022" [example; dismay])
     = fst (get_sales_for_period "DECEMBER" "2022" [example; dismay]).
Proof.
  split; [reflexivity|].
  destruct (period_filter "DECEMBER" "2022" [example; dismay] eq_refl)
    as [Hrun [Hcase _]].
  split; [exact Hrun | exact (Hcase "december" eq_refl)].
Defined.







(** C9: for [december] of [2022] and a store without a record of that
    period the body is one line feed, not the empty string. *)
Lemma period_without_match_counterexample :
  exists response,
    fst (get_sales_for_period "december" "2022" [with_rebate]) = Ok response
    /\ period_records "december" "2022" [with_rebate] = []
    /\ body_iterator response = [ str LF ]
    /\ body_iterator response <> [ EmptyString ]
    /\ body_iterator response <> [].
Proof.
  eexists. split; [reflexivity|]. repeat split; discriminate.
Qed.

Lemma period_without_match_witness :
  valid_period "december" "2022" = true
  /\ (forall d, In d [with_rebate] ->
        matches (period_query "december" "2022") d = false)
  /\ exists response,
       fst (get_sales_for_period "december" "2022" [with_rebate]) = Ok response
       /\ body_iterator response = [linesep].
Proof.
  assert (Hnone : forall d, In d [with_rebate] ->
            matches (period_query "december" "2022") d = false).
  { intros d [<-|[]]. reflexivity. }
  split; [reflexivity|]. split; [exact Hnone|].
  destruct (period_without_match "december" "2022" [with_rebate] eq_refl Hnone)
    as [response [Hrun [_ [_ [_ [_ [Hbody _]]]]]]].
  exists response. split; [exact Hrun | exact Hbody].
Defined.



(** * Further properties *)

(** ** Identifiers *)

Lemma string_pair_ind (P : string -> Prop) :
  P EmptyString ->
  (forall c, P (String c EmptyString)) ->
  (forall c d s, P s -> P (String d s) -> P (String c (String d s))) ->
  forall s, P s.
Proof.
  intros Hnil Hone Hstep s.
  assert (Hboth : P s /\ forall c, P (String c s)).
  { induction s as [|d s [IHs IHc]]; [split; [exact Hnil | exact Hone]|].
    split; [apply IHc|]. intros c. apply Hstep; [exact IHs | apply IHc]. }
  apply Hboth.
Qed.

Lemma hexval_lt (c : ascii) (h : N) : hexval c = Some h -> (h < 16)%N.
Proof.
  intros Hh. destruct c as [[] [] [] [] [] [] [] []]; vm_compute in Hh;
    try discriminate; injection Hh as <-; reflexivity.
Qed.

Lemma hexval_lower (c : ascii) : hexval (lower_char c) = hexval c.
Proof. destruct c as [[] [] [] [] [] [] [] []]; reflexivity. Qed.

Lemma is_space_lower (c : ascii) : is_space (lower_char c) = is_space c.
Proof. destruct c as [[] [] [] [] [] [] [] []]; reflexivity. Qed.

Lemma hexchar_digit (n : N) :
  (n < 16)%N -> hexval (hexchar n) = Some n /\ is_space (hexchar n) = false.
Proof.
  intros Hn.
  assert (Hk : exists k, (k < 16)%nat /\ n = N.of_nat k)
    by (exists (N.to_nat n); lia).
  destruct Hk as [k [Hk ->]].
  do 16 (destruct k as [|k]; [split; reflexivity|]). lia.
Qed.

Lemma length_lower (s : string) : String.length (lower s) = String.length s.
Proof. induction s as [|c s IH]; simpl; [reflexivity | rewrite IH; reflexivity]. Qed.

Lemma fromhex_pair (c d : ascii) (s : string) :
  fromhex (String c (String d s))
  = if is_space c then fromhex (String d s)
    else match hexval c, hexval d, fromhex s with
         | Some h, Some l, Some bs => Some ((16 * h + l)%N :: bs)
         | _, _, _ => None
         end.
Proof. reflexivity. Qed.

Lemma fromhex_lower (s : string) : fromhex (lower s) = fromhex s.
Proof.
  induction s as [|c|c d s IH1 IH2] using string_pair_ind.
  - reflexivity.
  - cbn [lower fromhex]. rewrite is_space_lower. reflexivity.
  - change (lower (String c (String d s)))
      with (String (lower_char c) (String (lower_char d) (lower s))).
    rewrite !fromhex_pair, is_space_lower, !hexval_lower, IH1.
    change (String (lower_char d) (lower s)) with (lower (String d s)).
    rewrite IH2. reflexivity.
Qed.

Lemma hexval_not_space (c : ascii) (h : N) :
  hexval c = Some h -> is_space c = false.
Proof.
  intros Hh. destruct c as [[] [] [] [] [] [] [] []]; vm_compute in Hh;
    try discriminate; reflexivity.
Qed.

(** What [fromhex] reads: two characters a byte, the white space apart. *)
Lemma fromhex_bytes (s : string) (bs : list N) :
  fromhex s = Some bs ->
  2 * length bs <= String.length s
  /\ Forall (fun b => (b < 256)%N) bs
  /\ (no_space s = true -> 2 * length bs = String.length s)
  /\ (no_space s = false -> 2 * length bs < String.length s).
Proof.
  revert bs. induction s as [|c|c d s IH1 IH2] using string_pair_ind; intros bs.
  - intros [= <-]. simpl. repeat split; [lia | constructor | discriminate].
  - cbn [fromhex]. destruct (is_space c) eqn:Hc; [|discriminate].
    intros [= <-]. simpl. rewrite Hc. repeat split;
      [lia | constructor | discriminate | lia].
  - rewrite fromhex_pair. destruct (is_space c) eqn:Hc.
    + intros Hbs. destruct (IH2 bs Hbs) as [Hlen [Hall _]].
      cbn [String.length] in *. repeat split; [lia | exact Hall | | lia].
      cbn [no_space]. rewrite Hc. discriminate.
    + destruct (hexval c) as [h|] eqn:Hh; [|discriminate].
      destruct (hexval d) as [l|] eqn:Hl; [|discriminate].
      destruct (fromhex s) as [bs'|] eqn:Hs; [|discriminate].
      intros [= <-].
      destruct (IH1 bs' eq_refl) as [Hlen [Hall [Hexact Hless]]].
      pose proof (hexval_not_space d l Hl) as Hd.
      apply hexval_lt in Hh. apply hexval_lt in Hl.
      assert (Hb : (16 * h + l < 256)%N) by lia.
      cbn [String.length length no_space]. rewrite Hc, Hd. cbn [negb andb].
      repeat split.
      * lia.
      * constructor; [exact Hb | exact Hall].
      * intros Hns. specialize (Hexact Hns). lia.
      * intros Hns. specialize (Hless Hns). lia.
Qed.

Lemma length_ObjectId_str (oid : ObjectId) :
  String.length (ObjectId_str oid) = 2 * length oid.
Proof. induction oid as [|b oid IH]; simpl; [reflexivity | rewrite IH; lia]. Qed.

Lemma fromhex_ObjectId_str (oid : ObjectId) :
  Forall (fun b => (b < 256)%N) oid -> fromhex (ObjectId_str oid) = Some oid.
Proof.
  induction 1 as [|b oid Hb Hall IH]; [reflexivity|].
  assert (Hhi : (b / 16 < 16)%N) by (apply N.Div0.div_lt_upper_bound; lia).
  assert (Hlo : (b mod 16 < 16)%N) by (apply N.mod_lt; lia).
  destruct (hexchar_digit _ Hhi) as [Hvh Hsh].
  destruct (hexchar_digit _ Hlo) as [Hvl _].
  cbn [ObjectId_str]. rewrite fromhex_pair, Hsh, Hvh, Hvl, IH.
  rewrite <- (N.div_mod b 16) by lia. reflexivity.
Qed.


(** X2.  The text of an identifier of twelve bytes validates back to the
    identifier: [PyObjectId.validate(str(oid))] is [oid]. *)
Theorem ObjectId_str_validate (oid : ObjectId) :
  length oid = 12 ->
  Forall (fun b => (b < 256)%N) oid ->
  is_valid (VStr (ObjectId_str oid)) = true
  /\ PyObjectId_validate (VStr (ObjectId_str oid)) = Ok oid.
Proof.
  intros Hlen Hall.
  assert (Hs : String.length (ObjectId_str oid) = 24)
    by (rewrite length_ObjectId_str; lia).
  pose proof (fromhex_ObjectId_str oid Hall) as Hhex.
  unfold PyObjectId_validate, is_valid, ObjectId_of.
  rewrite Hs, Hhex. split; reflexivity.
Qed.

Lemma ObjectId_str_validate_witness :
  length [99; 200; 73; 3; 26; 238; 246; 221; 39; 237; 59; 172]%N = 12
  /\ Forall (fun b => (b < 256)%N)
        [99; 200; 73; 3; 26; 238; 246; 221; 39; 237; 59; 172]%N
  /\ ObjectId_str [99; 200; 73; 3; 26; 238; 246; 221; 39; 237; 59; 172]%N
     = "63c849031aeef6dd27ed3bac"
  /\ PyObjectId_validate (VStr "63c849031aeef6dd27ed3bac")
     = Ok [99; 200; 73; 3; 26; 238; 246; 221; 39; 237; 59; 172]%N.
Proof.
  assert (Hall : Forall (fun b => (b < 256)%N)
            [99; 200; 73; 3; 26; 238; 246; 221; 39; 237; 59; 172]%N)
    by (repeat constructor).
  split; [reflexivity|]. split; [exact Hall|]. split; [reflexivity|].
  exact (proj2 (ObjectId_str_validate
                  [99; 200; 73; 3; 26; 238; 246; 221; 39; 237; 59; 172]%N
                  eq_refl Hall)).
Defined.

(** X3.  [PyObjectId.validate] takes the hexadecimal digits of a string
    in either case: a string and its lower-case form validate alike. *)
Theorem PyObjectId_validate_lower (s : string) :
  PyObjectId_validate (VStr (lower s)) = PyObjectId_validate (VStr s).
Proof.
  unfold PyObjectId_validate, is_valid, ObjectId_of.
  rewrite length_lower, fromhex_lower. reflexivity.
Qed.

(** X4.  A string [PyObjectId.validate] takes has 24 characters, and the
    identifier it gives has at most twelve bytes: twelve exactly when
    the string has no white space, fewer when it has some, which
    [bytes.fromhex] skips. *)
Theorem PyObjectId_validate_bytes (s : string) (oid : ObjectId) :
  PyObjectId_validate (VStr s) = Ok oid ->
  String.length s = 24
  /\ length oid <= 12
  /\ Forall (fun b => (b < 256)%N) oid
  /\ (length oid = 12 <-> no_space s = true).
Proof.
  unfold PyObjectId_validate, is_valid, ObjectId_of.
  destruct (String.length s =? 24)%nat eqn:Hlen; cbn [andb negb];
    [|discriminate].
  apply Nat.eqb_eq in Hlen.
  destruct (fromhex s) as [bs|] eqn:Hhex; cbn [negb]; [|discriminate].
  intros [= <-].
  destruct (fromhex_bytes s bs Hhex) as [Hle [Hall [Hexact Hless]]].
  repeat split; try assumption; try lia.
  - intros Hbs. destruct (no_space s); [reflexivity|].
    specialize (Hless eq_refl). lia.
  - intros Hns. specialize (Hexact Hns). lia.
Qed.

Lemma PyObjectId_validate_bytes_witness :
  PyObjectId_validate (VStr "00 11 22 33 44 55 66 77 ")
  = Ok [0; 17; 34; 51; 68; 85; 102; 119]%N
  /\ String.length "00 11 22 33 44 55 66 77 " = 24
  /\ no_space "00 11 22 33 44 55 66 77 " = false.
Proof.
  split; [reflexivity|].
  destruct (PyObjectId_validate_bytes "00 11 22 33 44 55 66 77 "
              [0; 17; 34; 51; 68; 85; 102; 119]%N eq_refl) as [Hlen _].
  split; [exact Hlen | reflexivity].
Defined.

(** ** The [Sale] model *)

Section SaleModel.

Context `{Validators}.

(** X5.  [None] is no value for a field of [Sale] declared without
    [Optional]: a record that holds [None] under [_id] or under one of
    these fields is no [Sale], whatever the validators.  Under a field
    declared [Optional] it is kept: the [Sale] made of such a record has
    [None] in that field. *)
Theorem Sale_None (x : dict) :
  (dict_get "_id" x = Some VNone ->
   Sale_init x = Raise (ValidationError "_id"))
  /\ (forall f, In f not_optional_fields -> dict_get f x = Some VNone ->
        exists e, Sale_init x = Raise e)
  /\ (forall s, Sale_init x = Ok s ->
        (dict_get "addr2" x = Some VNone -> Sale.addr2 s = None)
        /\ (dict_get "country" x = Some VNone -> Sale.country s = None)
        /\ (dict_get "contract" x = Some VNone -> Sale.contract s = None)
        /\ (dict_get "cust_nbr" x = Some VNone -> Sale.cust_nbr s = None)
        /\ (dict_get "notes" x = Some VNone -> Sale.notes s = None)
        /\ (dict_get "gpo" x = Some VNone -> Sale.gpo s = None)
        /\ (dict_get "rebate" x = Some VNone -> Sale.rebate s = None)
        /\ (dict_get "net" x = Some VNone -> Sale.net s = None)).
Proof.
  split; [|split].
  - intros Hid. unfold Sale_init, id_field. rewrite Hid. reflexivity.
  - intros f Hin Hnone.
    assert (Hreq : forall T (v : value -> option T),
              required f v x = Raise (ValidationError f))
      by (intros; unfold required; rewrite Hnone; reflexivity).
    unfold Sale_init. simpl in Hin.
    repeat (destruct Hin as [<-|Hin];
      [ rewrite Hreq;
        repeat (cbn [rbind];
                match goal with
                | |- exists e, Raise _ = Raise e => eexists; reflexivity
                | |- exists e, rbind ?r _ = Raise e =>
                    destruct r; cbn [rbind]; [|eexists; reflexivity]
                end) | ]).
    contradiction.
  - intros s Hs. apply Sale_init_conforms in Hs. unfold conforms in Hs.
    decompose [and] Hs. clear Hs.
    repeat split; intros Hnone; unfold nullable in *; rewrite Hnone in *;
      congruence.
Qed.

(** X6.  [Sale] looks at the keys of its fields and at no other: two
    records that agree on these keys make the same [Sale] or fail
    alike. *)
Theorem Sale_init_agree (x y : dict) :
  (forall f, In f field_keys -> dict_get f x = dict_get f y) ->
  Sale_init x = Sale_init y.
Proof.
  intros Hk. unfold Sale_init, id_field, required, nullable.
  repeat match goal with
         | |- context [dict_get ?f x] =>
             rewrite (Hk f) by (simpl; repeat (first [left; reflexivity | right]))
         end.
  reflexivity.
Qed.

End SaleModel.

Lemma Sale_init_agree_witness :
  (forall f, In f field_keys ->
     dict_get f (items example)
     = dict_get f (items example ++ [("margin", VInt 3)]))
  /\ Sale_init (items example ++ [("margin", VInt 3)])
     = Sale_init (items example).
Proof.
  assert (Hk : forall f, In f field_keys ->
            dict_get f (items example)
            = dict_get f (items example ++ [("margin", VInt 3)])).
  { intros f Hin. simpl in Hin.
    repeat (destruct Hin as [<-|Hin]; [reflexivity|]). contradiction. }
  split; [exact Hk|]. symmetry. apply Sale_init_agree. exact Hk.
Defined.

(** ** All sales: errors and columns *)

Lemma rmap_raise_same {A B} (f : A -> result B) (l : list A) (e : exn) :
  (exists a, In a l /\ f a = Raise e) ->
  (forall a, In a l -> f a = Raise e \/ exists b, f a = Ok b) ->
  rmap f l = Raise e.
Proof.
  induction l as [|a l IH]; intros [a0 [Hin Ha0]] Hall; [contradiction|].
  simpl. destruct (Hall a (or_introl eq_refl)) as [Ha|[b Hb]].
  - rewrite Ha. reflexivity.
  - rewrite Hb. cbn [rbind]. rewrite IH; [reflexivity| |].
    + destruct Hin as [<-|Hin]; [congruence|]. exists a0. split; assumption.
    + intros a' Ha'. apply Hall. right. exact Ha'.
Qed.

Lemma net_frame_KeyError (records : list dict) :
  records <> [] ->
  net_defined records = false ->
  net_frame records
  = Raise (KeyError (if has_column "rebate" records then "sale" else "rebate")).
Proof.
  intros Hne Hd. unfold net_defined in Hd.
  assert (Hrows :
    rmap net_of (map (align (labels records)) records)
    = Raise (KeyError (if has_column "rebate" records then "sale"
                       else "rebate"))).
  { destruct (has_column "rebate" records) eqn:Hreb; cbn [andb] in Hd.
    - apply orb_false_iff in Hd. destruct Hd as [Hzero Hsale].
      apply negb_false_iff in Hzero. apply existsb_exists in Hzero.
      destruct Hzero as [r0 [Hin Hz]].
      apply rmap_raise_same.
      + exists (align (labels records) r0). split; [apply in_map; exact Hin|].
        apply net_of_without_sale; rewrite ?contains_labels; assumption.
      + intros x Hx. apply in_map_iff in Hx. destruct Hx as [r [<- Hr]].
        destruct (eq_zero (cell r "rebate")) eqn:Hzr.
        * left. apply net_of_without_sale; rewrite ?contains_labels; assumption.
        * right. exists (derived_net r). apply net_of_align.
          -- rewrite contains_labels. exact Hreb.
          -- rewrite Hzr. discriminate.
    - apply rmap_raise_same.
      + destruct records as [|r records]; [contradiction|].
        exists (align (labels (r :: records)) r). split; [left; reflexivity|].
        apply net_of_without_rebate. rewrite contains_labels. exact Hreb.
      + intros x Hx. apply in_map_iff in Hx. destruct Hx as [r [<- Hr]].
        left. apply net_of_without_rebate. rewrite contains_labels. exact Hreb. }
  unfold net_frame, apply_rows, DataFrame_of. cbn [rows columns].
  destruct records as [|r records]; [contradiction|].
  cbn [map] in *. rewrite Hrows. reflexivity.
Qed.

Section SalesErrors.

Context `{Printer} `{Validators}.

(** X7.  On a collection that is not empty and on which [net] cannot be
    assigned, [get_sales] raises the [KeyError] of the column it misses,
    whatever the format: [rebate] when no record has one, [sale] when
    some rebate is zero and no record has a sale. *)
Theorem get_sales_KeyError (format : string) (db : Collection) :
  db <> [] ->
  net_defined (map items db) = false ->
  fst (get_sales format db)
  = Raise (KeyError (if has_column "rebate" (map items db) then "sale"
                     else "rebate")).
Proof.
  intros Hne Hd. rewrite get_sales_run. cbn [fst].
  rewrite net_frame_KeyError; [reflexivity| |exact Hd].
  destruct db; [contradiction | discriminate].
Qed.

End SalesErrors.

Lemma get_sales_KeyError_witness :
  [mkdoc (VInt 1) [("rebate", VInt 0)]] <> []
  /\ net_defined (map items [mkdoc (VInt 1) [("rebate", VInt 0)]]) = false
  /\ fst (get_sales "csv" [mkdoc (VInt 1) [("rebate", VInt 0)]])
     = Raise (KeyError "sale")
  /\ fst (get_sales "json" [dismay]) = Raise (KeyError "rebate").
Proof.
  split; [discriminate|]. split; [reflexivity|]. split.
  - exact (get_sales_KeyError "csv" [mkdoc (VInt 1) [("rebate", VInt 0)]]
             ltac:(discriminate) eq_refl).
  - exact (get_sales_KeyError "json" [dismay] ltac:(discriminate) eq_refl).
Defined.

Lemma fold_add_label_prefix (ks acc : list string) :
  exists rest, fold_left add_label ks acc = acc ++ rest.
Proof.
  revert acc. induction ks as [|k ks IH]; intros acc; simpl.
  - exists []. rewrite app_nil_r. reflexivity.
  - unfold add_label at 2. destruct (contains acc k); [apply IH|].
    destruct (IH (acc ++ [k])) as [rest ->].
    exists (k :: rest). rewrite <- app_assoc. reflexivity.
Qed.

Lemma fold_add_label_fresh (ks acc : list string) :
  NoDup (acc ++ ks) -> fold_left add_label ks acc = acc ++ ks.
Proof.
  revert acc. induction ks as [|k ks IH]; intros acc Hnd; simpl.
  - rewrite app_nil_r. reflexivity.
  - assert (Hk : contains acc k = false).
    { destruct (contains acc k) eqn:Hc; [|reflexivity].
      apply contains_In in Hc. apply NoDup_remove_2 in Hnd.
      exfalso. apply Hnd. apply in_or_app. left. exact Hc. }
    unfold add_label at 2. rewrite Hk.
    rewrite IH; rewrite <- app_assoc; [reflexivity | exact Hnd].
Qed.

Lemma labels_first (r : dict) (records : list dict) :
  NoDup (keys r) -> exists rest, labels (r :: records) = keys r ++ rest.
Proof.
  intros Hnd. unfold labels. cbn [map concat]. rewrite fold_left_app.
  rewrite (fold_add_label_fresh (keys r) []) by exact Hnd.
  apply fold_add_label_prefix.
Qed.

(** X8.  The columns of a frame begin with the fields of the first
    record, in their stored order.  Where [get_sales] can assign [net],
    the frame it serializes has these columns and [net]: in its place if
    some record stores a [net], as the last column otherwise. *)
Theorem columns_order (r : dict) (records : list dict) :
  NoDup (keys r) ->
  (exists rest, columns (DataFrame_of (r :: records)) = keys r ++ rest)
  /\ (forall df, net_frame (r :: records) = Ok df ->
        columns df
        = if has_column "net" (r :: records)
          then columns (DataFrame_of (r :: records))
          else columns (DataFrame_of (r :: records)) ++ ["net"]).
Proof.
  intros Hnd. split; [apply labels_first; exact Hnd|].
  intros df Hdf.
  destruct (net_defined (r :: records)) eqn:Hdef.
  - rewrite (net_frame_ok _ Hdef) in Hdf. injection Hdf as <-.
    unfold net_frame_value, DataFrame_of, add_label. cbn [columns].
    rewrite contains_labels. reflexivity.
  - destruct (net_frame_raise _ Hdef) as [e He]. rewrite He in Hdf.
    discriminate.
Qed.

Lemma columns_order_witness :
  NoDup (keys (items with_rebate))
  /\ columns (DataFrame_of [items with_rebate; items stale])
     = ["_id"; "key"; "sale"; "rebate"; "net"]
  /\ (forall df, net_frame [items with_rebate; items without_rebate] = Ok df ->
        columns df = ["_id"; "key"; "sale"; "rebate"; "net"]).
Proof.
  assert (Hnd : NoDup (keys (items with_rebate))).
  { repeat constructor; simpl; intuition discriminate. }
  split; [exact Hnd|]. split; [reflexivity|].
  intros df Hdf.
  rewrite (proj2 (columns_order (items with_rebate) [items without_rebate] Hnd)
             df Hdf).
  reflexivity.
Defined.

(** ** Reading the text back *)









Section ReadBack.

Context `{Printer} `{Validators}.



End ReadBack.



(** ** The assignment of [net], again *)

Lemma keys_derived_record (cols : list string) (r : dict) :
  keys (derived_record cols r) = cols.
Proof.
  unfold keys, derived_record. rewrite map_map. simpl. apply map_id.
Qed.

Lemma fold_add_label_absorb (ks acc : list string) :
  (forall k, In k ks -> In k acc) -> fold_left add_label ks acc = acc.
Proof.
  induction ks as [|k ks IH]; intros Hin; simpl; [reflexivity|].
  assert (Hk : contains acc k = true)
    by (apply contains_In, Hin; left; reflexivity).
  unfold add_label at 2. rewrite Hk. apply IH.
  intros k' Hk'. apply Hin. right. exact Hk'.
Qed.

(** The labels of records that all have the same distinct keys are these
    keys. *)
Lemma labels_derived_records (cols : list string) (records : list dict) :
  records <> [] -> NoDup cols ->
  labels (map (derived_record cols) records) = cols.
Proof.
  intros Hne Hnd. destruct records as [|r records]; [contradiction|].
  unfold labels. cbn [map concat]. rewrite keys_derived_record, fold_left_app.
  rewrite (fold_add_label_fresh cols []) by exact Hnd. cbn [app].
  apply fold_add_label_absorb. intros k Hk.
  apply in_concat in Hk. destruct Hk as [ks [Hks Hk]].
  apply in_map_iff in Hks. destruct Hks as [x [<- Hx]].
  apply in_map_iff in Hx. destruct Hx as [r' [<- _]].
  rewrite keys_derived_record in Hk. exact Hk.
Qed.

Lemma cell_derived_record (records : list dict) (r : dict) (c : string) :
  In r records -> c <> "net" ->
  cell (derived_record (add_label (labels records) "net") r) c = cell r c.
Proof.
  intros Hr Hc. unfold cell at 1.
  rewrite dict_get_derived_record, contains_add_label, contains_labels.
  apply String.eqb_neq in Hc. rewrite Hc, orb_false_r.
  unfold derived_cell. rewrite Hc.
  destruct (has_column c records) eqn:Hcol; [reflexivity|].
  unfold cell. destruct (dict_get c r) as [v|] eqn:Hv; [|reflexivity].
  assert (Hcol' : has_column c records = true).
  { apply existsb_In with (a := r); [exact Hr|].
    rewrite contains_keys, Hv. reflexivity. }
  congruence.
Qed.

Lemma derived_record_idempotent (records : list dict) (r : dict) :
  In r records ->
  derived_record (add_label (labels records) "net")
    (derived_record (add_label (labels records) "net") r)
  = derived_record (add_label (labels records) "net") r.
Proof.
  intros Hr. unfold derived_record at 1 3. apply map_ext. intros c.
  f_equal. unfold derived_cell.
  destruct (String.eqb_spec c "net") as [->|Hc].
  - unfold derived_net.
    rewrite !(cell_derived_record records r) by (exact Hr || discriminate).
    reflexivity.
  - apply cell_derived_record; assumption.
Qed.

(** X11.  Assigning [net] is idempotent: the records of the frame
    [get_sales] serializes, as [to_dict("records")] gives them, go
    through the assignment again and come out as the same frame. *)
Theorem net_frame_idempotent (records : list dict) (df : DataFrame) :
  net_frame records = Ok df -> net_frame (to_dict_records df) = Ok df.
Proof.
  intros Hdf.
  destruct (net_defined records) eqn:Hdef;
    [|destruct (net_frame_raise _ Hdef) as [e He]; congruence].
  rewrite (net_frame_ok _ Hdef) in Hdf. injection Hdf as <-.
  unfold to_dict_records. rewrite rows_net_frame_value.
  set (cols := add_label (labels records) "net").
  assert (Hnd : NoDup cols) by apply NoDup_add_label, NoDup_labels.
  assert (Hne : records <> []).
  { intros ->. discriminate Hdef. }
  assert (Hlab : labels (map (derived_record cols) records) = cols)
    by (apply labels_derived_records; assumption).
  assert (Hin : forall k, contains cols k
                          = has_column k records || String.eqb k "net").
  { intros k. unfold cols. rewrite contains_add_label, contains_labels.
    reflexivity. }
  unfold net_defined in Hdef. apply andb_prop in Hdef.
  destruct Hdef as [Hreb Hsale].
  assert (Hdef' : net_defined (map (derived_record cols) records) = true).
  { unfold net_defined. rewrite <- !contains_labels, Hlab, !Hin, Hreb.
    cbn [orb andb].
    destruct (existsb (fun r => eq_zero (cell r "rebate"))
                (map (derived_record cols) records)) eqn:Hz; [|reflexivity].
    cbn [negb orb]. apply existsb_exists in Hz. destruct Hz as [x [Hx Hzx]].
    apply in_map_iff in Hx. destruct Hx as [r [<- Hr]].
    unfold cols in Hzx.
    rewrite (cell_derived_record records r) in Hzx
      by (exact Hr || discriminate).
    rewrite (existsb_In _ records r Hr Hzx) in Hsale. cbn [negb orb] in Hsale.
    rewrite Hsale. reflexivity. }
  rewrite (net_frame_ok _ Hdef'). f_equal.
  assert (Hcols : columns (net_frame_value (map (derived_record cols) records))
                  = columns (net_frame_value records)).
  { unfold net_frame_value. cbn [columns]. rewrite Hlab. fold cols.
    unfold add_label. rewrite Hin, String.eqb_refl, orb_true_r. reflexivity. }
  assert (Hrows : rows (net_frame_value (map (derived_record cols) records))
                  = rows (net_frame_value records)).
  { rewrite !rows_net_frame_value, Hlab. fold cols.
    assert (Hadd : add_label cols "net" = cols).
    { unfold add_label. rewrite Hin, String.eqb_refl, orb_true_r. reflexivity. }
    rewrite Hadd, map_map. apply map_ext_in. intros r Hr.
    apply derived_record_idempotent. exact Hr. }
  destruct (net_frame_value (map (derived_record cols) records)) as [c1 r1].
  destruct (net_frame_value records) as [c2 r2].
  cbn [columns rows] in Hcols, Hrows. subst. reflexivity.
Qed.

Lemma net_frame_idempotent_witness :
  exists df,
    net_frame (map items [stale; without_rebate]) = Ok df
    /\ net_frame (to_dict_records df) = Ok df
    /\ map (fun x => dict_get "net" x) (rows df) = [Some (VInt 68); Some NaN].
Proof.
  eexists. split; [vm_compute; reflexivity|]. split.
  - apply (net_frame_idempotent (map items [stale; without_rebate])).
    vm_compute. reflexivity.
  - reflexivity.
Defined.

(** ** Sales for a period, again *)

Lemma append_comparable (p q a b : string) :
  (p ++ a)%string = (q ++ b)%string ->
  endswith a b = true \/ endswith b a = true.
Proof.
  revert q. induction p as [|c p IH]; intros q Heq; simpl in Heq.
  - left. apply endswith_true. exists q. exact Heq.
  - destruct q as [|c' q]; simpl in Heq.
    + right. apply endswith_true. exists (String c p). symmetry. exact Heq.
    + injection Heq as _ Heq. apply (IH q). exact Heq.
Qed.

(** Texts a key can end with for two periods: none ends with another,
    with or without a line feed, unless the periods are the same. *)
Lemma period_suffixes_apart :
  forallb (fun p : string * string =>
    forallb (fun q : string * string =>
      implb
        (existsb (fun xy : string * string =>
                    endswith (fst xy) (snd xy) || endswith (snd xy) (fst xy))
           (list_prod
              [ (fst p ++ "-" ++ snd p)%string;
                (fst p ++ "-" ++ snd p ++ str LF)%string ]
              [ (fst q ++ "-" ++ snd q)%string;
                (fst q ++ "-" ++ snd q ++ str LF)%string ]))
        (String.eqb (fst p) (fst q) && String.eqb (snd p) (snd q)))
      (list_prod months years))
    (list_prod months years) = true.
Proof. vm_compute. reflexivity. Qed.

(** X12.  A document is found for one period at most: if it matches the
    query of two valid requests, these name the same month, whatever the
    case, and the same year. *)
Theorem period_unique (m1 y1 m2 y2 : string) (d : document) :
  valid_period m1 y1 = true ->
  valid_period m2 y2 = true ->
  matches (period_query m1 y1) d = true ->
  matches (period_query m2 y2) d = true ->
  lower m1 = lower m2 /\ y1 = y2.
Proof.
  unfold valid_period. intros Hv1 Hv2 H1 H2.
  apply andb_prop in Hv1. destruct Hv1 as [Hm1 Hy1].
  apply andb_prop in Hv2. destruct Hv2 as [Hm2 Hy2].
  rewrite matches_period, (lower_year _ Hy1) in H1.
  rewrite matches_period, (lower_year _ Hy2) in H2.
  unfold key_ends_with in H1, H2.
  destruct (dict_get "key" (items d)) as [[| | | |s| | |]|]; try discriminate.
  apply contains_In in Hm1, Hy1, Hm2, Hy2.
  pose proof period_suffixes_apart as Hall.
  rewrite forallb_forall in Hall.
  specialize (Hall (lower m1, y1) (in_prod _ _ _ _ Hm1 Hy1)).
  rewrite forallb_forall in Hall.
  specialize (Hall (lower m2, y2) (in_prod _ _ _ _ Hm2 Hy2)).
  cbn [fst snd] in Hall.
  assert (Hsome :
    existsb (fun xy : string * string =>
               endswith (fst xy) (snd xy) || endswith (snd xy) (fst xy))
      (list_prod
         [ (lower m1 ++ "-" ++ y1)%string;
           (lower m1 ++ "-" ++ y1 ++ str LF)%string ]
         [ (lower m2 ++ "-" ++ y2)%string;
           (lower m2 ++ "-" ++ y2 ++ str LF)%string ]) = true).
  { apply orb_prop in H1. apply orb_prop in H2.
    assert (Hcmp : forall a b,
              endswith (lower s) a = true -> endswith (lower s) b = true ->
              endswith a b || endswith b a = true).
    { intros a b Ha Hb. apply endswith_true in Ha, Hb.
      destruct Ha as [p Hp]. destruct Hb as [q Hq].
      apply orb_true_iff. apply (append_comparable p q). congruence. }
    rewrite !app_assoc_string in H1, H2.
    apply existsb_exists.
    destruct H1 as [H1|H1], H2 as [H2|H2];
      eexists (_, _); (split; [|cbn [fst snd]; apply (Hcmp _ _ H1 H2)]);
      cbn [list_prod map app In]; auto 6. }
  rewrite Hsome in Hall. cbn [implb] in Hall.
  apply andb_prop in Hall. destruct Hall as [Hm Hy].
  apply String.eqb_eq in Hm, Hy. split; assumption.
Qed.

Lemma period_unique_witness :
  valid_period "DECEMBER" "2022" = true
  /\ valid_period "december" "2022" = true
  /\ matches (period_query "DECEMBER" "2022") example = true
  /\ matches (period_query "december" "2022") example = true
  /\ lower "DECEMBER" = lower "december".
Proof.
  repeat (split; [reflexivity|]).
  exact (proj1 (period_unique "DECEMBER" "2022" "december" "2022" example
                  eq_refl eq_refl eq_refl eq_refl)).
Defined.

Section PeriodFrame.

Context `{Printer} `{Validators}.

(** X13.  Documents that do not match the period query leave no trace
    in what [get_sales_for_period] returns: with or without them in the
    collection, wherever they stand, the response is the same. *)
Theorem period_ignores_others (month year : string)
  (db1 others db2 : Collection) :
  (forall d, In d others -> matches (period_query month year) d = false) ->
  fst (get_sales_for_period month year (db1 ++ others ++ db2))
  = fst (get_sales_for_period month year (db1 ++ db2)).
Proof.
  intros Hnone. rewrite !get_sales_for_period_run. cbn [fst].
  unfold period_records.
  rewrite !filter_app, (filter_none _ _ Hnone). reflexivity.
Qed.

End PeriodFrame.

Lemma period_ignores_others_witness :
  (forall d, In d [with_rebate; stray] ->
     matches (period_query "december" "2022") d = false)
  /\ fst (get_sales_for_period "december" "2022"
            ([example] ++ [with_rebate; stray] ++ [stale]))
     = fst (get_sales_for_period "december" "2022" ([example] ++ [stale])).
Proof.
  assert (Hnone : forall d, In d [with_rebate; stray] ->
            matches (period_query "december" "2022") d = false).
  { intros d [<-|[<-|[]]]; reflexivity. }
  split; [exact Hnone|].
  exact (period_ignores_others "december" "2022" [example] [with_rebate; stray]
           [stale] Hnone).
Defined.

(** ** All sales: identifiers *)

Section SaleIds.

Context `{Printer} `{Validators}.

(** X14.  The [Sale] list [get_sales] returns keeps the stored
    identifiers: the [id] of each [Sale] is what [PyObjectId.validate]
    makes of the [_id] of its record, and the default factory makes
    none of them. *)
Theorem get_sales_ids (format : string) (db : Collection) (l : list Sale.t) :
  fst (get_sales format db) = Ok (Sales l) ->
  Forall2 (fun d s => PyObjectId_validate (doc_id d) = Ok (Sale.id s)) db l.
Proof.
  intros Hrun.
  destruct (net_defined (map items db)) eqn:Hdef.
  - rewrite (get_sales_defined format db Hdef) in Hrun.
    destruct (String.eqb format "csv"); [discriminate|].
    destruct (rmap Sale_init _) as [sales|e] eqn:Hs; [|discriminate].
    injection Hrun as <-. apply rmap_map_inv in Hs.
    refine (Forall2_impl_In _ _ _ _ _ Hs). intros d s Hd Hinit.
    apply Sale_init_conforms in Hinit. destruct Hinit as [Hid _].
    unfold id_field in Hid. rewrite (stored_id db d Hd) in Hid.
    destruct (doc_id d); cbv iota beta in Hid; try discriminate Hid;
      destruct (PyObjectId_validate _); congruence.
  - destruct (get_sales_undefined format db Hdef) as [e [He _]].
    rewrite He in Hrun. discriminate.
Qed.

End SaleIds.

Lemma get_sales_ids_witness :
  exists l,
    fst (get_sales "json" [example]) = Ok (Sales l)
    /\ map Sale.id l
       = [ [99; 200; 73; 3; 26; 238; 246; 221; 39; 237; 59; 172]%N ].
Proof.
  assert (Hrun : exists l, fst (get_sales "json" [example]) = Ok (Sales l))
    by (eexists; vm_compute; reflexivity).
  destruct Hrun as [l Hrun]. exists l. split; [exact Hrun|].
  pose proof (get_sales_ids "json" [example] l Hrun) as Hids.
  inversion Hids as [|d s db l' Hid Hrest]; subst.
  inversion Hrest; subst.
  assert (Hv : PyObjectId_validate (doc_id example)
               = Ok [99; 200; 73; 3; 26; 238; 246; 221; 39; 237; 59; 172]%N)
    by reflexivity.
  rewrite Hv in Hid. injection Hid as Hid. cbn [map]. rewrite <- Hid.
  reflexivity.
Defined.
